(** * ToolHR frontend: the API health pill of [frontend/app.js]

    The script looks up the element with id [api-status], and its single
    routine [checkApiHealth] writes a label and a CSS class into it, issues
    one [fetch] to the API's [/health] path and, once the request settles,
    rewrites label and class according to the outcome.

    The embedding is shallow.  The page is a list of elements (those that
    carry an id, in tree order), a node reference is a position in it, and
    an [async] function body is a term of a small resumption monad whose
    operations are the effects the script performs: a write to
    [textContent], a write to [className], a [fetch] whose answer is awaited,
    a [throw], and the entry into a called function, recorded so that
    invocations can be counted.  Running such a term against the answers the network
    gives yields the final page, the trace of effects and the way the
    returned promise settles, or a suspended run when the request never
    settles. *)

From stdpp Require Import base option list strings.

Local Open Scope string_scope.

(** ** The page *)

Module Dom.

Record Element := mkElement {
  el_id : string;
  textContent : string;
  className : string
}.

(** A node reference held by the script: the position of the element. *)
Abbreviation node := nat (only parsing).
Abbreviation Document := (list Element) (only parsing).

(** [document.getElementById(i)]: the first element of the tree that
    carries the id, [null] (here [None]) when there is none. *)
Definition getElementById (d : Document) (i : string) : option node :=
  fst <$> list_find (λ e, el_id e = i) d.

(** [el.textContent = s] and [el.className = s] on an element. *)
Definition set_textContent (s : string) (e : Element) : Element :=
  {| el_id := el_id e; textContent := s; className := className e |}.

Definition set_className (s : string) (e : Element) : Element :=
  {| el_id := el_id e; textContent := textContent e; className := s |}.

(** The same assignments through a node reference.  A reference obtained
    from [getElementById] is always in range; on any other position
    nothing is written. *)
Definition write_textContent (el : node) (s : string) (d : Document) : Document :=
  alter (set_textContent s) el d.

Definition write_className (el : node) (s : string) (d : Document) : Document :=
  alter (set_className s) el d.

(** [el.classList]: the class attribute split at white space. *)
Definition classList (e : Element) : list string := String.words (className e).

(** What the pill shows: its label and its class attribute. *)
Definition shown (e : Element) : string * string := (textContent e, className e).

Definition display (d : Document) (el : node) : option (string * string) :=
  shown <$> d !! el.

Definition styles (d : Document) (el : node) : option (list string) :=
  classList <$> d !! el.

End Dom.

(** ** The network boundary *)

Module Net.

Record Request := mkRequest { method : string; url : string }.

Record Response := mkResponse {
  status : nat;
  statusText : string;
  headers : list (string * string);
  body : string
}.

(** The [ok] getter of a [Response]: the status is in the range 200-299. *)
Definition ok (r : Response) : bool :=
  ((200 <=? status r)%nat && (status r <=? 299)%nat)%bool.

(** A thrown or rejected value. *)
Record JsError := mkError { err_name : string; err_message : string }.

(** [new Error(msg)] *)
Definition Error (msg : string) : JsError :=
  {| err_name := "Error"; err_message := msg |}.

(** How the promise returned by [fetch] settles. *)
Inductive settle :=
| Fulfilled (r : Response)
| Rejected (e : JsError).

(** [fetch(u)] with no init object is a GET request to [u]. *)
Definition fetch_request (u : string) : Request := {| method := "GET"; url := u |}.

End Net.

(** ** Async function bodies *)

Module Async.
Import Dom Net.

Inductive prog (A : Type) : Type :=
| Ret (a : A)
| Throw (e : JsError)
| WriteText (el : node) (s : string) (k : prog A)
| WriteClass (el : node) (s : string) (k : prog A)
| Fetch (req : Request) (k : settle → prog A)
| Call (f : string) (k : prog A).

Arguments Ret {A} a.
Arguments Throw {A} e.
Arguments WriteText {A} el s k.
Arguments WriteClass {A} el s k.
Arguments Fetch {A} req k.
Arguments Call {A} f k.

Fixpoint bind {A B} (p : prog A) (f : A → prog B) : prog B :=
  match p with
  | Ret a => f a
  | Throw e => Throw e
  | WriteText el s k => WriteText el s (bind k f)
  | WriteClass el s k => WriteClass el s (bind k f)
  | Fetch req k => Fetch req (λ s, bind (k s) f)
  | Call g k => Call g (bind k f)
  end.

#[global] Instance prog_ret : MRet prog := λ A a, Ret a.
#[global] Instance prog_bind : MBind prog := λ A B f p, bind p f.

(** [try { body } catch (error) { handler }] *)
Fixpoint try_catch {A} (body : prog A) (handler : JsError → prog A) : prog A :=
  match body with
  | Ret a => Ret a
  | Throw e => handler e
  | WriteText el s k => WriteText el s (try_catch k handler)
  | WriteClass el s k => WriteClass el s (try_catch k handler)
  | Fetch req k => Fetch req (λ s, try_catch (k s) handler)
  | Call g k => Call g (try_catch k handler)
  end.

Definition textContent_assign (el : node) (s : string) : prog unit :=
  WriteText el s (Ret tt).

Definition className_assign (el : node) (s : string) : prog unit :=
  WriteClass el s (Ret tt).

(** [await fetch(u)]: the request goes out, the body is suspended until
    the promise settles, and a rejection is thrown at the [await]. *)
Definition await_fetch (u : string) : prog Response :=
  Fetch (fetch_request u)
        (λ s, match s with Fulfilled r => Ret r | Rejected e => Throw e end).

(** *** Running a body *)

Inductive event :=
| EvCall (f : string)
| EvText (el : node) (s : string)
| EvClass (el : node) (s : string)
| EvRequest (req : Request)
| EvSettle (s : settle).

(** How the promise of the async function settles. *)
Inductive completion (A : Type) :=
| Normal (a : A)
| Abrupt (e : JsError).
Arguments Normal {A} a.
Arguments Abrupt {A} e.

(** A run either finishes, or stays suspended at an [await] whose request
    never settles. *)
Inductive result (A : Type) :=
| Finished (d : Document) (tr : list event) (c : completion A)
| Pending (d : Document) (tr : list event).
Arguments Finished {A} d tr c.
Arguments Pending {A} d tr.

Definition emit {A} (evs : list event) (r : result A) : result A :=
  match r with
  | Finished d tr c => Finished d (evs ++ tr) c
  | Pending d tr => Pending d (evs ++ tr)
  end.

(** [exec p answers d]: run [p] on the page [d]; the n-th request is
    answered by the n-th element of [answers], and a request with no
    answer never settles. *)
Fixpoint exec {A} (p : prog A) (answers : list settle) (d : Document) : result A :=
  match p with
  | Ret a => Finished d [] (Normal a)
  | Throw e => Finished d [] (Abrupt e)
  | WriteText el s k => emit [EvText el s] (exec k answers (write_textContent el s d))
  | WriteClass el s k => emit [EvClass el s] (exec k answers (write_className el s d))
  | Fetch req k =>
      match answers with
      | [] => Pending d [EvRequest req]
      | s :: rest => emit [EvRequest req; EvSettle s] (exec (k s) rest d)
      end
  | Call f k => emit [EvCall f] (exec k answers d)
  end.

Definition page {A} (r : result A) : Document :=
  match r with Finished d _ _ | Pending d _ => d end.

Definition trace {A} (r : result A) : list event :=
  match r with Finished _ tr _ | Pending _ tr => tr end.

Definition finished {A} (r : result A) : bool :=
  match r with Finished _ _ _ => true | Pending _ _ => false end.

Definition raised {A} (r : result A) : bool :=
  match r with Finished _ _ (Abrupt _) => true | _ => false end.

Definition completion_of {A} (r : result A) : option (completion A) :=
  match r with Finished _ _ c => Some c | Pending _ _ => None end.

End Async.

(** ** The script *)

Module App.
Import Dom Net Async.

(** [const statusEl = document.getElementById("api-status")] *)
Definition statusEl (d : Document) : option node := getElementById d "api-status".

Definition API_BASE_URL : string := "http://localhost:8000".

Definition checkApiHealth (statusEl : option node) : prog unit :=
  match statusEl with
  | None => mret tt
  | Some el =>
      textContent_assign el "Connessione...";;
      className_assign el "pill warning";;
      try_catch
        (response ← await_fetch (API_BASE_URL ++ "/health");
         (if negb (ok response)
          then Throw (Error "API non raggiungibile")
          else mret tt);;
         textContent_assign el "Online";;
         className_assign el "pill success")
        (λ error,
           textContent_assign el "Offline";;
           className_assign el "pill danger")
  end.

(** The whole script: the lookup, then the one call on the last line. *)
Definition script (d : Document) : prog unit :=
  Call "checkApiHealth" (checkApiHealth (statusEl d)).

End App.

(** ** The indicator's states, as the script writes them *)

Module Indicator.
Import Dom Net Async App.

Inductive indicator := Checking | Online | Offline.

(** The three label literals and the three state classes of the source. *)
Definition label_of (st : indicator) : string :=
  match st with
  | Checking => "Connessione..."
  | Online => "Online"
  | Offline => "Offline"
  end.

Definition style_of (st : indicator) : string :=
  match st with
  | Checking => "warning"
  | Online => "success"
  | Offline => "danger"
  end.

Definition class_of (st : indicator) : string := "pill " ++ style_of st.

Definition pair_of (st : indicator) : string * string := (label_of st, class_of st).

(** The two assignments that put the pill in a state, and their trace. *)
Definition show (st : indicator) (el : node) (d : Document) : Document :=
  write_className el (class_of st) (write_textContent el (label_of st) d).

Definition writes (st : indicator) (el : node) : list event :=
  [EvText el (label_of st); EvClass el (class_of st)].

(** The request of the health check. *)
Definition health_request : Request :=
  {| method := "GET"; url := API_BASE_URL ++ "/health" |}.

(** The classification of an answer that the script consumes. *)
Inductive outcome := OkStatus | NotOkStatus | Exception.

Definition classify (s : settle) : outcome :=
  match s with
  | Fulfilled r => if ok r then OkStatus else NotOkStatus
  | Rejected _ => Exception
  end.

Definition failure (s : settle) : bool :=
  match classify s with OkStatus => false | _ => true end.

Definition verdict (s : settle) : indicator :=
  if failure s then Offline else Online.

(** The requests and the class-attribute writes of a trace. *)
Definition requests (tr : list event) : list Request :=
  omap (λ ev, match ev with EvRequest req => Some req | _ => None end) tr.

Definition class_writes (tr : list event) : list string :=
  omap (λ ev, match ev with EvClass _ c => Some c | _ => None end) tr.

Definition text_writes (tr : list event) : list string :=
  omap (λ ev, match ev with EvText _ l => Some l | _ => None end) tr.

Definition calls (tr : list event) : list string :=
  omap (λ ev, match ev with EvCall f => Some f | _ => None end) tr.

(** *** Observations

    Script code runs to completion between two suspension points, so what
    another observer of the page can see is the trace with each label
    write fused with the class write that follows it at once.  A label
    write that is not followed at once by a class write on the same node,
    or a class write standing alone, is no observation. *)
Inductive obs :=
| ObsCall (f : string)
| ObsShow (el : node) (label cls : string)
| ObsRequest (req : Request)
| ObsSettle (s : settle).

Fixpoint observe (tr : list event) : option (list obs) :=
  match tr with
  | [] => Some []
  | EvText el l :: EvClass el' c :: tr' =>
      if decide (el = el') then (ObsShow el l c ::.) <$> observe tr' else None
  | EvText _ _ :: _ => None
  | EvClass _ _ :: _ => None
  | EvCall f :: tr' => (ObsCall f ::.) <$> observe tr'
  | EvRequest req :: tr' => (ObsRequest req ::.) <$> observe tr'
  | EvSettle s :: tr' => (ObsSettle s ::.) <$> observe tr'
  end.

Definition state_of_pair (p : string * string) : option indicator :=
  if decide (p = pair_of Checking) then Some Checking
  else if decide (p = pair_of Online) then Some Online
  else if decide (p = pair_of Offline) then Some Offline
  else None.

(** *** The state machine [idle → checking → {online | offline}]

    [displayed] is what the pill shows ([None]: idle, nothing written
    yet); [stage] is how far the current invocation has come. *)
Inductive stage := NoCall | Entered | SetChecking | Settled.

Record machine := mkMachine { displayed : option indicator; stage_of : stage }.

Definition idle : machine := {| displayed := None; stage_of := NoCall |}.

Definition step (m : machine) (o : obs) : option machine :=
  match o with
  | ObsCall _ => Some {| displayed := displayed m; stage_of := Entered |}
  | ObsRequest _ | ObsSettle _ => Some m
  | ObsShow _ l c =>
      match state_of_pair (l, c), stage_of m, displayed m with
      | Some Checking, Entered, _ =>
          Some {| displayed := Some Checking; stage_of := SetChecking |}
      | Some Online, SetChecking, Some Checking =>
          Some {| displayed := Some Online; stage_of := Settled |}
      | Some Offline, SetChecking, Some Checking =>
          Some {| displayed := Some Offline; stage_of := Settled |}
      | _, _, _ => None
      end
  end.

(** What an observer sees of a run of [checkApiHealth] on the node [el]. *)
Definition obs_of (el : node) (answers : list settle) : list obs :=
  match answers with
  | [] =>
      [ObsShow el (label_of Checking) (class_of Checking); ObsRequest health_request]
  | s :: _ =>
      [ObsShow el (label_of Checking) (class_of Checking);
       ObsRequest health_request; ObsSettle s;
       ObsShow el (label_of (verdict s)) (class_of (verdict s))]
  end.

Fixpoint steps (m : machine) (os : list obs) : option machine :=
  match os with
  | [] => Some m
  | o :: os' => m' ← step m o; steps m' os'
  end.

End Indicator.

Import Dom Net Async App Indicator.


(** ** Sample pages and answers *)

Definition pill0 : Element :=
  {| el_id := "api-status"; textContent := "API"; className := "pill" |}.
Definition page0 : list Element :=
  [ {| el_id := "title"; textContent := "TOOL HR"; className := "" |}; pill0 ].
Definition r200 : Response :=
  {| status := 200%nat; statusText := "OK"; headers := []; body := "{}" |}.
Definition r500 : Response :=
  {| status := 500%nat; statusText := "Internal Server Error"; headers := []; body := "" |}.
Definition refused : JsError :=
  {| err_name := "TypeError"; err_message := "Failed to fetch" |}.
Definition r404 : Response :=
  {| status := 404%nat; statusText := "Not Found";
     headers := [("content-type", "application/json")]; body := "{'detail':'Not Found'}" |}.
Definition page1 : list Element :=
  [ {| el_id := "api-status"; textContent := "Online"; className := "pill success" |};
    {| el_id := "api-status"; textContent := "dup"; className := "" |} ].
Definition bare_page : list Element :=
  [ {| el_id := "title"; textContent := "TOOL HR"; className := "" |} ].


(** Case analysis on where an element sits in a list that is known. *)
Ltac split_prefix pre := repeat (destruct pre as [|? pre]; simplify_eq/=).

(** ** How a run of [checkApiHealth] unfolds *)

Section Runs.
Context (d : list Element).

Lemma getElementById_Some i el :
  getElementById d i = Some el → ∃ e, d !! el = Some e ∧ el_id e = i.
Proof.
  unfold getElementById. intros H.
  destruct (list_find _ d) as [[n e]|] eqn:Hf; simplify_eq/=.
  apply list_find_Some in Hf as (Hl & Hid & _). eauto.
Qed.

Lemma getElementById_None i :
  getElementById d i = None → ∀ e, e ∈ d → el_id e ≠ i.
Proof.
  unfold getElementById. intros H e He.
  destruct (list_find _ d) as [[n e']|] eqn:Hf; simplify_eq/=.
  rewrite list_find_None in Hf. by eapply Forall_forall in Hf.
Qed.

Lemma statusEl_Some el :
  statusEl d = Some el → ∃ e, d !! el = Some e ∧ el_id e = "api-status".
Proof. apply getElementById_Some. Qed.

(** With no element the body returns at its first line. *)
Lemma exec_absent answers :
  exec (checkApiHealth None) answers d = Finished d [] (Normal tt).
Proof. reflexivity. Qed.

(** With the element: the checking state, the request, and after the
    answer the state its classification selects. *)
Lemma exec_present el answers :
  exec (checkApiHealth (Some el)) answers d =
  match answers with
  | [] =>
      Pending (show Checking el d) (writes Checking el ++ [EvRequest health_request])
  | s :: _ =>
      Finished (show (verdict s) el (show Checking el d))
               (writes Checking el ++ [EvRequest health_request; EvSettle s]
                  ++ writes (verdict s) el)
               (Normal tt)
  end.
Proof.
  destruct answers as [|[r|e] rest]; [reflexivity| |reflexivity].
  unfold verdict, failure, classify. cbn -[ok].
  destruct (ok r); reflexivity.
Qed.

Lemma show_lookup st el e :
  d !! el = Some e →
  show st el d !! el =
    Some {| el_id := el_id e; textContent := label_of st; className := class_of st |}.
Proof.
  intros H. unfold show, write_className, write_textContent.
  by rewrite !list_lookup_alter_eq, H.
Qed.


Lemma display_show st el :
  is_Some (d !! el) → display (show st el d) el = Some (pair_of st).
Proof. intros [e He]. unfold display. by rewrite (show_lookup _ _ e). Qed.

End Runs.

Lemma display_show_show st st' d el :
  is_Some (d !! el) → display (show st el (show st' el d)) el = Some (pair_of st).
Proof.
  intros [e He]. apply display_show. rewrite (show_lookup _ _ _ e He). eauto.
Qed.


(** The three pairs differ in the label and in the class. *)
Lemma label_of_inj st1 st2 : label_of st1 = label_of st2 → st1 = st2.
Proof. by destruct st1, st2. Qed.

Lemma class_of_inj st1 st2 : class_of st1 = class_of st2 → st1 = st2.
Proof. by destruct st1, st2. Qed.

Lemma state_of_pair_of st : state_of_pair (pair_of st) = Some st.
Proof. by destruct st. Qed.

Lemma styles_show st d el :
  is_Some (d !! el) → styles (show st el d) el = Some ["pill"; style_of st].
Proof.
  intros [e He]. unfold styles. rewrite (show_lookup _ _ _ e He).
  by destruct st.
Qed.

Lemma verdict_cases s :
  (failure s = false ∧ verdict s = Online) ∨ (failure s = true ∧ verdict s = Offline).
Proof. unfold verdict. destruct (failure s); auto. Qed.

Lemma observe_writes st el tr :
  observe (writes st el ++ tr) =
  (ObsShow el (label_of st) (class_of st) ::.) <$> observe tr.
Proof. cbn. by rewrite decide_True. Qed.

Lemma observe_present d el answers :
  observe (trace (exec (checkApiHealth (Some el)) answers d)) = Some (obs_of el answers).
Proof.
  rewrite exec_present. destruct answers as [|s rest]; cbn [trace obs_of].
  - by rewrite observe_writes.
  - rewrite observe_writes. cbn [app observe fmap option_fmap option_map].
    by rewrite <- (app_nil_r (writes _ _)), observe_writes.
Qed.

(** *** Facts about the state machine *)

(** A terminal state is entered only from the checking state that the same
    invocation has set. *)
Lemma step_into_terminal m o m' st :
  step m o = Some m' → displayed m' = Some st → st ≠ Checking →
  displayed m' ≠ displayed m →
  stage_of m = SetChecking ∧ displayed m = Some Checking ∧ stage_of m' = Settled.
Proof.
  destruct o as [f|el l c|req|s]; cbn; intros H Hst Hne Hch; simplify_eq/=; try done.
  destruct (state_of_pair (l, c)) as [[]|], (stage_of m), (displayed m) as [[]|];
    simplify_eq/=; done.
Qed.

(** The checking state is set only right after a call was entered. *)
Lemma step_into_checking m o m' :
  step m o = Some m' → stage_of m' = SetChecking → stage_of m ≠ SetChecking →
  stage_of m = Entered ∧ displayed m' = Some Checking.
Proof.
  destruct o as [f|el l c|req|s]; cbn; intros H Hst Hne; simplify_eq/=; try done.
  destruct (state_of_pair (l, c)) as [[]|], (stage_of m), (displayed m) as [[]|];
    simplify_eq/=; done.
Qed.

(** Once an invocation has settled, only a fresh call moves the machine. *)
Lemma step_from_settled m o m' :
  step m o = Some m' → stage_of m = Settled → m' = m ∨ ∃ f, o = ObsCall f.
Proof.
  destruct o as [f|el l c|req|s]; cbn; intros H Hst; simplify_eq/=; eauto.
  rewrite Hst in H.
  destruct (state_of_pair (l, c)) as [[]|], (displayed m) as [[]|]; simplify_eq/=.
Qed.

(** ** The properties of the health check *)

(** C1, as stated, fails on the label: on a page that has the pill, the
    label written before the request is not the text "Connecting…". *)
Lemma C1_label_is_not_Connecting :
  statusEl page0 = Some 1 ∧
  ∃ e, page (exec (checkApiHealth (statusEl page0)) [] page0) !! 1 = Some e ∧
       textContent e ≠ "Connecting…".
Proof. split; [reflexivity|]. eexists; split; [reflexivity|]. discriminate. Qed.

(** C1 (amended): whenever the status element exists, every invocation of
    [checkApiHealth], whatever the page showed before and however the
    request is answered, first writes the label "Connessione..." and the
    class "pill warning" and only then issues the request; while the request
    has not settled the pill shows exactly that pair, with the classes
    [pill] and [warning]. *)
Theorem C1_checking_before_request (d : list Element) (el : nat) (answers : list settle) :
  statusEl d = Some el →
  (∃ tr', trace (exec (checkApiHealth (statusEl d)) answers d) =
            EvText el "Connessione..." :: EvClass el "pill warning"
              :: EvRequest health_request :: tr')
  ∧ finished (exec (checkApiHealth (statusEl d)) [] d) = false
  ∧ display (page (exec (checkApiHealth (statusEl d)) [] d)) el =
      Some ("Connessione...", "pill warning")
  ∧ styles (page (exec (checkApiHealth (statusEl d)) [] d)) el =
      Some ["pill"; "warning"].
Proof.
  intros Hel. destruct (statusEl_Some d el Hel) as (e & He & _).
  rewrite Hel, !exec_present. split.
  - destruct answers; cbn [trace writes app]; eauto.
  - cbn [finished page]. split; [done|]. split.
    + apply (display_show d Checking). eauto.
    + apply (styles_show Checking). eauto.
Qed.

Lemma C1_checking_before_request_witness :
  statusEl page0 = Some 1 ∧
  display (page (exec (checkApiHealth (statusEl page0)) [] page0)) 1 =
    Some ("Connessione...", "pill warning").
Proof.
  split; [reflexivity|].
  apply (C1_checking_before_request page0 1 [Fulfilled r200]). reflexivity.
Defined.

(** C2: when the status element exists and the request resolves with a
    response whose status is OK, the run finishes and the pill ends with the
    label "Online" and the class "pill success". *)
Theorem C2_ok_response_shows_online
    (d : list Element) (el : nat) (r : Response) (rest : list settle) :
  statusEl d = Some el →
  ok r = true →
  finished (exec (checkApiHealth (statusEl d)) (Fulfilled r :: rest) d) = true
  ∧ display (page (exec (checkApiHealth (statusEl d)) (Fulfilled r :: rest) d)) el =
      Some ("Online", "pill success")
  ∧ styles (page (exec (checkApiHealth (statusEl d)) (Fulfilled r :: rest) d)) el =
      Some ["pill"; "success"].
Proof.
  intros Hel Hok. destruct (statusEl_Some d el Hel) as (e & He & _).
  rewrite Hel, exec_present. cbn [finished page].
  assert (verdict (Fulfilled r) = Online) as ->
    by (unfold verdict, failure, classify; by rewrite Hok).
  split; [done|]. split.
  - apply (display_show_show Online). eauto.
  - apply (styles_show Online). rewrite (show_lookup _ _ _ e He). eauto.
Qed.

Lemma C2_ok_response_shows_online_witness :
  statusEl page0 = Some 1 ∧ ok r200 = true ∧
  display (page (exec (checkApiHealth (statusEl page0)) [Fulfilled r200] page0)) 1 =
    Some ("Online", "pill success").
Proof.
  split; [reflexivity|]. split; [reflexivity|].
  apply (C2_ok_response_shows_online page0 1 r200 []); reflexivity.
Defined.

(** C3: when the status element exists and the request fails, by a
    response whose status is not OK or by a rejection with any error, the
    run finishes and the pill ends with the label "Offline" and the class
    "pill danger"; any two failures leave the same page. *)
Theorem C3_failure_shows_offline
    (d : list Element) (el : nat) (s s' : settle) (rest rest' : list settle) :
  statusEl d = Some el →
  failure s = true →
  failure s' = true →
  finished (exec (checkApiHealth (statusEl d)) (s :: rest) d) = true
  ∧ display (page (exec (checkApiHealth (statusEl d)) (s :: rest) d)) el =
      Some ("Offline", "pill danger")
  ∧ styles (page (exec (checkApiHealth (statusEl d)) (s :: rest) d)) el =
      Some ["pill"; "danger"]
  ∧ page (exec (checkApiHealth (statusEl d)) (s :: rest) d) =
    page (exec (checkApiHealth (statusEl d)) (s' :: rest') d).
Proof.
  intros Hel Hs Hs'. destruct (statusEl_Some d el Hel) as (e & He & _).
  rewrite Hel, !exec_present. cbn [finished page].
  unfold verdict. rewrite Hs, Hs'.
  split; [done|]. split; [|split; [|done]].
  - apply (display_show_show Offline). eauto.
  - apply (styles_show Offline). rewrite (show_lookup _ _ _ e He). eauto.
Qed.

Lemma C3_failure_shows_offline_witness :
  statusEl page0 = Some 1 ∧
  failure (Fulfilled r500) = true ∧
  failure (Rejected refused) = true ∧
  display (page (exec (checkApiHealth (statusEl page0)) [Fulfilled r500] page0)) 1 =
    Some ("Offline", "pill danger") ∧
  page (exec (checkApiHealth (statusEl page0)) [Fulfilled r500] page0) =
  page (exec (checkApiHealth (statusEl page0)) [Rejected refused] page0).
Proof.
  do 3 (split; [reflexivity|]).
  destruct (C3_failure_shows_offline page0 1 (Fulfilled r500) (Rejected refused) [] []
              eq_refl eq_refl eq_refl) as (_ & H1 & _ & H2).
  split; [exact H1|exact H2].
Defined.

(** C4: when the lookup of the status element yields nothing,
    [checkApiHealth] returns at once: the page is left as it was, the trace
    is empty (no write, no request) and the call completes normally. *)
Theorem C4_absent_element_noop (d : list Element) (answers : list settle) :
  statusEl d = None →
  exec (checkApiHealth (statusEl d)) answers d = Finished d [] (Normal tt).
Proof. intros ->. apply exec_absent. Qed.

Lemma C4_absent_element_noop_witness :
  statusEl bare_page = None ∧
  exec (checkApiHealth (statusEl bare_page)) [Fulfilled r200] bare_page =
    Finished bare_page [] (Normal tt).
Proof.
  split; [reflexivity|]. apply (C4_absent_element_noop bare_page). reflexivity.
Defined.

(** C5: label and class are written as one pair.  In every run, each
    write of the label is followed at once, with no suspension in between,
    by the write of the class on the same node, and the pair written is one
    of the three fixed pairs; at the suspension point and after the check
    has completed the pill shows one of the three pairs, and never the
    label of one state with the class of another. *)
Theorem C5_label_and_class_as_one_pair
    (d : list Element) (el : nat) (answers : list settle) :
  statusEl d = Some el →
  (∃ os, observe (trace (exec (checkApiHealth (statusEl d)) answers d)) = Some os ∧
         Forall (λ o, match o with
                      | ObsShow el' l c => el' = el ∧ ∃ st, (l, c) = pair_of st
                      | _ => True
                      end) os)
  ∧ (∃ st, display (page (exec (checkApiHealth (statusEl d)) answers d)) el =
             Some (pair_of st)
           ∧ ∀ st1 st2,
               display (page (exec (checkApiHealth (statusEl d)) answers d)) el =
                 Some (label_of st1, class_of st2) →
               st1 = st ∧ st2 = st).
Proof.
  intros Hel. destruct (statusEl_Some d el Hel) as (e & He & _).
  rewrite Hel. split.
  - exists (obs_of el answers). split; [apply observe_present|].
    destruct answers; repeat constructor; eauto.
  - rewrite exec_present.
    assert (∃ st, display (page
        match answers with
        | [] => Pending (A:=unit) (show Checking el d)
                  (writes Checking el ++ [EvRequest health_request])
        | s :: _ =>
            Finished (show (verdict s) el (show Checking el d))
              (writes Checking el ++ [EvRequest health_request; EvSettle s]
                 ++ writes (verdict s) el) (Normal tt)
        end) el = Some (pair_of st)) as [st Hst].
    { destruct answers as [|s rest]; cbn [page].
      - exists Checking. apply display_show. eauto.
      - exists (verdict s). apply display_show_show. eauto. }
    exists st. split; [exact Hst|]. intros st1 st2. rewrite Hst.
    unfold pair_of. intros H.
    split; [apply label_of_inj | apply class_of_inj]; congruence.
Qed.

Lemma C5_label_and_class_as_one_pair_witness :
  statusEl page0 = Some 1 ∧
  ∃ st, display (page (exec (checkApiHealth (statusEl page0)) [Rejected refused] page0)) 1
        = Some (pair_of st).
Proof.
  split; [reflexivity|].
  destruct (C5_label_and_class_as_one_pair page0 1 [Rejected refused] eq_refl)
    as (_ & st & Hst & _).
  exists st. exact Hst.
Defined.

(** C6: [checkApiHealth] never raises.  Whatever the page and however the
    request is answered, the run does not end in a thrown error; when it
    finishes, the returned promise is fulfilled with no value; and a failed
    request, with the element present, ends in that normal completion with
    the pill showing "Offline" and "pill danger". *)
Theorem C6_never_raises (d : list Element) (answers : list settle) :
  raised (exec (checkApiHealth (statusEl d)) answers d) = false
  ∧ (finished (exec (checkApiHealth (statusEl d)) answers d) = true →
     completion_of (exec (checkApiHealth (statusEl d)) answers d) = Some (Normal tt))
  ∧ (∀ el s rest,
       statusEl d = Some el → answers = s :: rest → failure s = true →
       completion_of (exec (checkApiHealth (statusEl d)) answers d) = Some (Normal tt)
       ∧ display (page (exec (checkApiHealth (statusEl d)) answers d)) el =
           Some ("Offline", "pill danger")).
Proof.
  destruct (statusEl d) as [el|] eqn:Hel.
  - destruct (statusEl_Some d el Hel) as (e & He & _).
    rewrite exec_present. split; [by destruct answers|].
    split; [by destruct answers|].
    intros el' s rest [= <-] -> Hs. split; [done|]. cbn [page].
    unfold verdict. rewrite Hs. apply (display_show_show Offline). eauto.
  - rewrite exec_absent. split; [done|]. split; [done|]. intros; discriminate.
Qed.

Lemma C6_never_raises_witness :
  raised (exec (checkApiHealth (statusEl page0)) [Rejected refused] page0) = false ∧
  display (page (exec (checkApiHealth (statusEl page0)) [Rejected refused] page0)) 1 =
    Some ("Offline", "pill danger").
Proof.
  destruct (C6_never_raises page0 [Rejected refused]) as (H1 & _ & H3).
  split; [exact H1|].
  exact (proj2 (H3 1 (Rejected refused) [] eq_refl eq_refl eq_refl)).
Defined.

(** C7: with the element present, every run issues exactly one request,
    however it is answered and however many answers are on offer: a GET to
    the constant [API_BASE_URL] followed by "/health". *)
Theorem C7_single_get_request (d : list Element) (el : nat) (answers : list settle) :
  statusEl d = Some el →
  requests (trace (exec (checkApiHealth (statusEl d)) answers d)) =
    [ {| method := "GET"; url := API_BASE_URL ++ "/health" |} ]
  ∧ API_BASE_URL ++ "/health" = "http://localhost:8000/health".
Proof.
  intros ->. rewrite exec_present. split; [|reflexivity].
  by destruct answers.
Qed.

Lemma C7_single_get_request_witness :
  statusEl page0 = Some 1 ∧
  requests (trace (exec (checkApiHealth (statusEl page0))
                        [Fulfilled r500; Fulfilled r200] page0)) =
    [ {| method := "GET"; url := "http://localhost:8000/health" |} ].
Proof.
  split; [reflexivity|].
  apply (C7_single_get_request page0 1 [Fulfilled r500; Fulfilled r200]). reflexivity.
Defined.

(** C8: the end state depends on the classification of the answer alone.
    Two runs, on any two pages that have the element, whose answers are
    both OK responses, both not-OK responses or both rejections, end with
    the same label and class, whatever the status codes, bodies, headers or
    errors were. *)
Theorem C8_end_state_by_classification
    (d1 d2 : list Element) (el1 el2 : nat) (s1 s2 : settle) (rest1 rest2 : list settle) :
  statusEl d1 = Some el1 →
  statusEl d2 = Some el2 →
  classify s1 = classify s2 →
  display (page (exec (checkApiHealth (statusEl d1)) (s1 :: rest1) d1)) el1 =
  display (page (exec (checkApiHealth (statusEl d2)) (s2 :: rest2) d2)) el2.
Proof.
  intros H1 H2 Hc.
  destruct (statusEl_Some d1 el1 H1) as (e1 & He1 & _).
  destruct (statusEl_Some d2 el2 H2) as (e2 & He2 & _).
  rewrite H1, H2, !exec_present. cbn [page].
  rewrite !display_show_show by eauto.
  unfold verdict, failure. by rewrite Hc.
Qed.

Lemma C8_end_state_by_classification_witness :
  statusEl page0 = Some 1 ∧ statusEl page1 = Some 0 ∧
  classify (Fulfilled r500) = classify (Fulfilled r404) ∧
  display (page (exec (checkApiHealth (statusEl page0)) [Fulfilled r500] page0)) 1 =
  display (page (exec (checkApiHealth (statusEl page1)) [Fulfilled r404] page1)) 0.
Proof.
  do 3 (split; [reflexivity|]).
  apply (C8_end_state_by_classification page0 page1 1 0 (Fulfilled r500) (Fulfilled r404));
    reflexivity.
Defined.

(** C9: the order [idle → checking → {online | offline}].  In every run
    of the script, [checkApiHealth] is called exactly once; what is observed
    is accepted by the state machine started idle, which enters a terminal
    state only from the checking state set by the same invocation and, once
    an invocation has settled, moves only on a fresh call; a terminal state
    is shown only after the call and the checking state, and nothing is
    observed after it. *)
Theorem C9_idle_checking_terminal (d : list Element) (answers : list settle) :
  calls (trace (exec (script d) answers d)) = ["checkApiHealth"]
  ∧ ∃ os m,
      observe (trace (exec (script d) answers d)) = Some os
      ∧ steps idle os = Some m
      ∧ displayed m = match statusEl d, answers with
                      | None, _ => None
                      | Some _, [] => Some Checking
                      | Some _, s :: _ => Some (verdict s)
                      end
      ∧ ∀ pre el st post,
          os = (pre ++ ObsShow el (label_of st) (class_of st) :: post)%list →
          st ≠ Checking →
          post = [] ∧
          ∃ pre', pre = ObsCall "checkApiHealth"
                          :: ObsShow el (label_of Checking) (class_of Checking) :: pre'.
Proof.
  change (exec (script d) answers d)
    with (emit [EvCall "checkApiHealth"] (exec (checkApiHealth (statusEl d)) answers d)).
  destruct (statusEl d) as [el0|] eqn:Hel.
  - split; [rewrite exec_present; by destruct answers|].
    exists (ObsCall "checkApiHealth" :: obs_of el0 answers).
    assert (observe (trace (emit [EvCall "checkApiHealth"]
                              (exec (checkApiHealth (Some el0)) answers d)))
            = Some (ObsCall "checkApiHealth" :: obs_of el0 answers)) as Hobs.
    { pose proof (observe_present d el0 answers) as H.
      destruct (exec (checkApiHealth (Some el0)) answers d); cbn in *; by rewrite H. }
    destruct answers as [|s rest].
    + exists {| displayed := Some Checking; stage_of := SetChecking |}.
      split; [exact Hobs|]. split; [reflexivity|]. split; [reflexivity|].
      intros pre el st post Heq Hst. exfalso.
      split_prefix pre; by destruct st.
    + exists {| displayed := Some (verdict s); stage_of := Settled |}.
      split; [exact Hobs|]. cbn [obs_of].
      destruct (verdict_cases s) as [[_ ->]|[_ ->]].
      all: split; [reflexivity|]; split; [reflexivity|].
      all: intros pre el st post Heq Hst.
      all: split_prefix pre; try (by destruct st); eauto.
  - rewrite exec_absent. split; [reflexivity|].
    exists [ObsCall "checkApiHealth"], {| displayed := None; stage_of := Entered |}.
    split; [reflexivity|]. split; [reflexivity|]. split; [reflexivity|].
    intros pre el st post Heq _. exfalso.
    split_prefix pre.
Qed.

Lemma C9_idle_checking_terminal_witness :
  calls (trace (exec (script page0) [Fulfilled r200] page0)) = ["checkApiHealth"] ∧
  ∃ os, observe (trace (exec (script page0) [Fulfilled r200] page0)) = Some os ∧
        steps idle os = Some {| displayed := Some Online; stage_of := Settled |}.
Proof.
  destruct (C9_idle_checking_terminal page0 [Fulfilled r200]) as (H1 & os & m & H2 & H3 & _).
  split; [exact H1|]. exists os. split; [exact H2|].
  rewrite H3. revert H2 H3. cbn. intros [= <-] [= <-]. reflexivity.
Defined.

(** C10: the base class is kept.  With the element present, every value
    the script writes to the class attribute is "pill " followed by the
    class of one of the three states, and both while the request is pending
    and after the run the element's class list is [pill] followed by that
    state class. *)
Theorem C10_pill_class_kept (d : list Element) (el : nat) (answers : list settle) :
  statusEl d = Some el →
  Forall (λ c, ∃ st, c = "pill " ++ style_of st)
         (class_writes (trace (exec (checkApiHealth (statusEl d)) answers d)))
  ∧ ∃ st, display (page (exec (checkApiHealth (statusEl d)) answers d)) el =
            Some (label_of st, "pill " ++ style_of st)
          ∧ styles (page (exec (checkApiHealth (statusEl d)) answers d)) el =
              Some ["pill"; style_of st].
Proof.
  intros Hel. destruct (statusEl_Some d el Hel) as (e & He & _).
  rewrite Hel, exec_present. destruct answers as [|s rest]; cbn [trace page].
  - split; [repeat constructor; by exists Checking|].
    exists Checking. split; [apply (display_show d Checking)|apply styles_show]; eauto.
  - split.
    + repeat constructor; [by exists Checking|by exists (verdict s)].
    + exists (verdict s).
      split; [apply (display_show_show (verdict s))|apply styles_show]; eauto.
      rewrite (show_lookup _ _ _ e He). eauto.
Qed.

Lemma C10_pill_class_kept_witness :
  statusEl page0 = Some 1 ∧
  Forall (λ c, ∃ st, c = "pill " ++ style_of st)
         (class_writes (trace (exec (checkApiHealth (statusEl page0)) [Fulfilled r500] page0))).
Proof.
  split; [reflexivity|].
  apply (C10_pill_class_kept page0 1 [Fulfilled r500]). reflexivity.
Defined.

(** ** Further properties of the script *)

(** *** The lookup on the first line *)

(** Assignments that keep the id of every element do not change what a
    lookup by id finds. *)
Lemma getElementById_alter (f : Element → Element) (d : list Element) (n : nat) (i : string) :
  (∀ e, el_id (f e) = el_id e) →
  getElementById (alter f n d) i = getElementById d i.
Proof.
  intros Hf. unfold getElementById. revert n.
  induction d as [|x d IH]; intros [|n]; cbn; try done.
  - rewrite Hf. by destruct (decide (el_id x = i)).
  - destruct (decide (el_id x = i)); [done|].
    specialize (IH n).
    destruct (list_find _ (alter f n d)) as [[? ?]|],
             (list_find _ d) as [[? ?]|]; simplify_eq/=; done.
Qed.

Lemma show_show st st' el (d : list Element) :
  show st el (show st' el d) = show st el d.
Proof.
  unfold show, write_className, write_textContent.
  rewrite !list_alter_alter_eq. by apply list_alter_ext.
Qed.

Lemma statusEl_show st el (d : list Element) : statusEl (show st el d) = statusEl d.
Proof.
  unfold statusEl, show, write_className, write_textContent.
  by rewrite !getElementById_alter.
Qed.




(** *** What a run leaves alone *)



(** *** Which answers count as healthy *)

(** X3: with the element present, a settled run ends with the pill showing
    "Online" / "pill success" exactly when the answer is a response whose
    status lies between 200 and 299; every other answer, a response with a
    status outside that range or a rejection, ends in "Offline" /
    "pill danger". *)
Theorem X3_online_iff_status_2xx
    (d : list Element) (el : nat) (s : settle) (rest : list settle) :
  statusEl d = Some el →
  (display (page (exec (checkApiHealth (statusEl d)) (s :: rest) d)) el =
     Some ("Online", "pill success")
   ↔ ∃ r, s = Fulfilled r ∧ (200 ≤ status r ≤ 299)%nat)
  ∧ (display (page (exec (checkApiHealth (statusEl d)) (s :: rest) d)) el =
       Some ("Offline", "pill danger")
     ↔ ¬ ∃ r, s = Fulfilled r ∧ (200 ≤ status r ≤ 299)%nat).
Proof.
  intros Hel. destruct (statusEl_Some d el Hel) as (e & He & _).
  rewrite Hel, exec_present. cbn [page].
  rewrite display_show_show by eauto.
  assert ((∃ r, s = Fulfilled r ∧ (200 ≤ status r ≤ 299)%nat) ↔ verdict s = Online) as ->.
  { unfold verdict, failure, classify. destruct s as [r|err].
    - unfold ok. destruct (200 <=? status r)%nat eqn:H1, (status r <=? 299)%nat eqn:H2;
        cbn; (split; [intros (r' & [= <-] & Hlo & Hhi)|intros H]); try done.
      + exists r. split; [done|]. apply Nat.leb_le in H1, H2. done.
      + apply Nat.leb_gt in H2. lia.
      + apply Nat.leb_gt in H1. lia.
      + apply Nat.leb_gt in H1. lia.
    - split; [intros (r' & ? & _); discriminate|done]. }
  destruct (verdict_cases s) as [[_ ->]|[_ ->]]; split; split; try done.
  all: intros H; by contradict H.
Qed.

Lemma X3_online_iff_status_2xx_witness :
  statusEl page0 = Some 1 ∧
  display (page (exec (checkApiHealth (statusEl page0)) [Fulfilled r404] page0)) 1 =
    Some ("Offline", "pill danger").
Proof.
  split; [reflexivity|].
  destruct (X3_online_iff_status_2xx page0 1 (Fulfilled r404) [] eq_refl) as [_ [_ H]].
  apply H. intros (r & [= <-] & _ & Hhi). cbn in Hhi. lia.
Defined.

(** *** Checking again *)

(** X4: a later check overwrites an earlier one without residue.  When
    [checkApiHealth] has run to its end and is run again on the page it
    left, the lookup still finds the same node and the second run leaves
    exactly the page that a single run with the second answer would have
    left on the original page: the pill shows the state of the last answer,
    whatever the first answer was. *)
Theorem X4_recheck_overwrites
    (d : list Element) (el : nat) (s1 s2 : settle) (rest1 rest2 : list settle) :
  statusEl d = Some el →
  statusEl (page (exec (checkApiHealth (statusEl d)) (s1 :: rest1) d)) = Some el
  ∧ page (exec (checkApiHealth (statusEl d)) (s2 :: rest2)
            (page (exec (checkApiHealth (statusEl d)) (s1 :: rest1) d)))
    = page (exec (checkApiHealth (statusEl d)) (s2 :: rest2) d)
  ∧ display (page (exec (checkApiHealth (statusEl d)) (s2 :: rest2)
                     (page (exec (checkApiHealth (statusEl d)) (s1 :: rest1) d)))) el
    = Some (if failure s2 then ("Offline", "pill danger") else ("Online", "pill success")).
Proof.
  intros Hel. destruct (statusEl_Some d el Hel) as (e & He & _).
  rewrite Hel, !exec_present. cbn [page]. rewrite !show_show.
  split; [by rewrite statusEl_show|]. split; [done|].
  rewrite <- (show_show (verdict s2) Checking). rewrite display_show_show by eauto.
  unfold verdict. by destruct (failure s2).
Qed.

Lemma X4_recheck_overwrites_witness :
  statusEl page0 = Some 1 ∧
  display (page (exec (checkApiHealth (statusEl page0)) [Fulfilled r200]
                   (page (exec (checkApiHealth (statusEl page0)) [Rejected refused] page0)))) 1
  = Some ("Online", "pill success").
Proof.
  split; [reflexivity|].
  exact (proj2 (proj2 (X4_recheck_overwrites page0 1 (Rejected refused) (Fulfilled r200)
                         [] [] eq_refl))).
Defined.

(** *** What a run writes, and what it never writes *)

(** X5: with the element present, a settled run makes exactly two label
    writes and two class writes: the checking pair, then the pair of the
    outcome.  So a failed check never writes "Online" or "pill success", not
    even in passing, and a successful one never writes "Offline" or
    "pill danger". *)
Theorem X5_terminal_writes_exclusive
    (d : list Element) (el : nat) (s : settle) (rest : list settle) :
  statusEl d = Some el →
  text_writes (trace (exec (checkApiHealth (statusEl d)) (s :: rest) d)) =
    ["Connessione..."; if failure s then "Offline" else "Online"]
  ∧ class_writes (trace (exec (checkApiHealth (statusEl d)) (s :: rest) d)) =
      ["pill warning"; if failure s then "pill danger" else "pill success"]
  ∧ (failure s = true →
       ("Online" ∉ text_writes (trace (exec (checkApiHealth (statusEl d)) (s :: rest) d)))
       ∧ ("pill success" ∉
            class_writes (trace (exec (checkApiHealth (statusEl d)) (s :: rest) d))))
  ∧ (failure s = false →
       ("Offline" ∉ text_writes (trace (exec (checkApiHealth (statusEl d)) (s :: rest) d)))
       ∧ ("pill danger" ∉
            class_writes (trace (exec (checkApiHealth (statusEl d)) (s :: rest) d)))).
Proof.
  intros ->. rewrite exec_present. cbn [trace].
  unfold verdict. destruct (failure s); cbn.
  all: split; [done|]; split; [done|]; split; intros ?; try done.
  all: split; intros Hin; repeat (apply elem_of_cons in Hin as [?|Hin]; [done|]);
         by apply elem_of_nil in Hin.
Qed.

Lemma X5_terminal_writes_exclusive_witness :
  statusEl page0 = Some 1 ∧ failure (Fulfilled r500) = true ∧
  "Online" ∉ text_writes (trace (exec (checkApiHealth (statusEl page0)) [Fulfilled r500] page0)).
Proof.
  split; [reflexivity|]. split; [reflexivity|].
  destruct (X5_terminal_writes_exclusive page0 1 (Fulfilled r500) [] eq_refl)
    as (_ & _ & H & _).
  exact (proj1 (H eq_refl)).
Defined.
